(** * PRIME CVD risk calculator: the calculation functions of [cvd_risk_app.py]

    The four calculation functions of the application
    ([calculate_smart_risk], [calculate_ldl_effect],
    [calculate_ldl_reduction], [generate_recommendations]) and the
    [LDL_THERAPIES] table are embedded below, one Rocq definition per
    Python definition, with the local variables of the source kept as
    [let]s.  The data drawn by [plot_risk_gauge] (bars and needle) and the
    main script, as a function of the widget values, follow.

    Numbers.  Python's [float] is idealised as a real number: [+], [-],
    [*] and [/] are exact.  What the source can observe of the float
    format is kept: [math.log] raises on a non-positive argument,
    [math.exp] and [**] raise when the result exceeds the largest double,
    [round(x, 1)] rounds half to even, [min] and [max] return their first
    argument on a tie.  An [int] argument (age, SBP, eGFR, the vascular
    count) is the real number it denotes.  Module [Binary64] runs the
    purely arithmetic functions on IEEE-754 doubles as well.

    Errors.  [try: ... except Exception: ... return None] is the [option]
    monad: [None] is the [except] branch.  The call to [st.error] there is
    presentation and is left out. *)

From Stdlib Require Import Reals Lra Lia ZArith Floats.
From stdpp Require Import base option strings list gmap.

Open Scope R_scope.

(** ** Python built-ins used by the source *)

Module Py.

(** [max(a, b)]: the first argument unless the second is strictly larger. *)
Definition max (a b : R) : R := if Rlt_dec a b then b else a.

(** [min(a, b)]: the first argument unless the second is strictly smaller. *)
Definition min (a b : R) : R := if Rlt_dec b a then b else a.

(** Nearest integer, ties to the even one. *)
Definition round_half_even (x : R) : Z :=
  let f := Zfloor x in
  let d := x - IZR f in
  if Rlt_dec d (1 / 2) then f
  else if Rlt_dec (1 / 2) d then (f + 1)%Z
  else if Z.even f then f else (f + 1)%Z.

(** [round(x, ndigits)] for a non-negative [ndigits]. *)
Definition round (x : R) (ndigits : nat) : R :=
  IZR (round_half_even (x * 10 ^ ndigits)) / 10 ^ ndigits.

(** The largest finite double, [(2 - 2^-52) * 2^1023]. *)
Definition float_max : R := IZR (2 ^ 1024 - 2 ^ 971).

(** A result that does not fit a double raises [OverflowError]. *)
Definition finite (v : R) : option R :=
  if Rle_dec (Rabs v) float_max then Some v else None.

(** [math.log(x)]: [ValueError] unless [0 < x]. *)
Definition math_log (x : R) : option R :=
  if Rlt_dec 0 x then Some (ln x) else None.

(** [math.exp(x)]: [OverflowError] when the result is out of range. *)
Definition math_exp (x : R) : option R := finite (exp x).

(** [b ** y] on floats, for a positive base (the source's only base is
    the literal [0.900]); other bases are not modelled and give [None]. *)
Definition float_pow (b y : R) : option R :=
  if Rlt_dec 0 b then finite (Rpower b y) else None.

(** [d.get(k, dflt)] on a dict with string keys. *)
Definition dict_get {V : Type} (d : gmap string V) (k : string) (dflt : V) : V :=
  default dflt (d !! k).

(** [if x:] on a float that may be [None]: false on [None] and on zero. *)
Definition truthy (x : option R) : bool :=
  match x with
  | None => false
  | Some v => if Req_dec_T v 0 then false else true
  end.

(** [sum(l)] on a list of booleans, which count as 1 and 0. *)
Definition sum (l : list bool) : Z := foldr (fun b acc => (Z.b2z b + acc)%Z) 0%Z l.

(** [np.radians(deg)]. *)
Definition radians (deg : R) : R := deg * (PI / 180).

End Py.

(** ** Constants *)

Definition LDL_THERAPIES : gmap string (gmap string Z) :=
  {[ "Atorvastatin 20 mg" := {[ "reduction" := 40%Z ]};
     "Atorvastatin 80 mg" := {[ "reduction" := 50%Z ]};
     "Rosuvastatin 10 mg" := {[ "reduction" := 45%Z ]};
     "Rosuvastatin 20 mg" := {[ "reduction" := 55%Z ]} ]}.

(** ** Calculation functions *)

(** The local [crp_log] of [calculate_smart_risk]. *)
Definition crp_log (crp : R) : option R :=
  Py.math_log (Py.max crp 0.1 + 1).

(** The local [lp] of [calculate_smart_risk], given [crp_log]. *)
Definition lp (age : R) (sex : string) (sbp total_chol hdl : R)
    (smoker diabetes : bool) (egfr crp_log vasc_count : R) : R :=
  let sex_val := if decide (sex = "Male") then 1 else 0 in
  let smoking_val := if smoker then 1 else 0 in
  let diabetes_val := if diabetes then 1 else 0 in
  0.064 * age + 0.34 * sex_val + 0.02 * sbp + 0.25 * total_chol -
  0.25 * hdl + 0.44 * smoking_val + 0.51 * diabetes_val -
  0.2 * (egfr / 10) + 0.25 * crp_log + 0.4 * vasc_count.

(** The local [risk10] of [calculate_smart_risk], given [lp]. *)
Definition risk10 (lp : R) : option R :=
  e ← Py.math_exp (lp - 5.8);
  p ← Py.float_pow 0.900 e;
  Some (1 - p).

Definition calculate_smart_risk (age : R) (sex : string)
    (sbp total_chol hdl : R) (smoker diabetes : bool)
    (egfr crp vasc_count : R) : option R :=
  crp_log ← crp_log crp;
  risk10 ← risk10 (lp age sex sbp total_chol hdl smoker diabetes
                      egfr crp_log vasc_count);
  Some (Py.max 1.0 (Py.min 99.0 (Py.round (risk10 * 100) 1))).

(** No operation of the [try] block can raise on numbers, so the
    [except] branch (return [baseline_risk]) is never taken and the
    function is total. *)
Definition calculate_ldl_effect (baseline_risk baseline_ldl final_ldl : R)
    (bp_controlled smoking_cessation lifestyle : bool) : R :=
  let ldl_reduction := baseline_ldl - final_ldl in
  let rrr := Py.min (22 * ldl_reduction) 60 in
  let rrr := if bp_controlled then rrr + 10 else rrr in
  let rrr := if smoking_cessation then rrr + 10 else rrr in
  let rrr := if lifestyle then rrr + 5 else rrr in
  let rrr := Py.min rrr 80 in
  baseline_risk * (1 - rrr / 100).

Definition calculate_ldl_reduction (current_ldl : R)
    (pre_statin discharge_statin : string)
    (discharge_add_ons : list string) : R * R :=
  let statin_reduction :=
    IZR (Py.dict_get (Py.dict_get LDL_THERAPIES discharge_statin ∅)
           "reduction" 0%Z) in
  let statin_reduction :=
    if decide (pre_statin ≠ "None") then statin_reduction * 0.5
    else statin_reduction in
  let total_reduction := statin_reduction in
  let total_reduction :=
    if decide ("Ezetimibe" ∈ discharge_add_ons) then total_reduction + 20
    else total_reduction in
  let total_reduction :=
    if decide ("PCSK9 inhibitor" ∈ discharge_add_ons) then total_reduction + 60
    else total_reduction in
  let total_reduction :=
    if decide ("Inclisiran" ∈ discharge_add_ons) then total_reduction + 50
    else total_reduction in
  let projected_ldl := current_ldl * (1 - total_reduction / 100) in
  (projected_ldl, total_reduction).

(** The three branches of [generate_recommendations]. *)
Inductive tier : Type := VeryHigh | High | Moderate.

Definition risk_tier (final_risk : R) : tier :=
  if Rle_dec 30 final_risk then VeryHigh
  else if Rle_dec 20 final_risk then High
  else Moderate.

(** The text returned in each branch, byte for byte as in the source file. *)
Definition tier_text (t : tier) : string :=
  match t with
  | VeryHigh => "ðŸ”´ Very High Risk: High-intensity statin, PCSK9 inhibitor, SBP <130 mmHg, lifestyle adherence."
  | High => "ðŸŸ  High Risk: Moderate-intensity statin, SBP <130 mmHg, encourage smoking cessation and healthy diet."
  | Moderate => "ðŸŸ¢ Moderate Risk: Lifestyle adherence, annual reassessment."
  end.

Definition generate_recommendations (final_risk : R) : string :=
  tier_text (risk_tier final_risk).

(** The main script's [crp_used = crp if include_crp else 0.0]. *)
Definition crp_used (crp : R) (include_crp : bool) : R :=
  if include_crp then crp else 0.0.

(** ** The same arithmetic on IEEE-754 doubles

    [calculate_ldl_effect], [calculate_ldl_reduction] and the thresholds
    of [generate_recommendations] use only [+ - * /] and comparisons, which
    Rocq's primitive floats compute exactly as Python does. *)

Module Binary64.

Local Open Scope float_scope.

Definition of_int (z : Z) : float := PrimFloat.of_uint63 (Uint63.of_Z z).

Definition min (a b : float) : float := if PrimFloat.ltb b a then b else a.

Definition max (a b : float) : float := if PrimFloat.ltb a b then b else a.

(** The last step of [calculate_smart_risk], applied to whatever
    [round(risk10 * 100, 1)] is, NaN and the infinities included. *)
Definition clamp (rounded : float) : float := max 1.0 (min 99.0 rounded).

Definition calculate_ldl_effect (baseline_risk baseline_ldl final_ldl : float)
    (bp_controlled smoking_cessation lifestyle : bool) : float :=
  let ldl_reduction := baseline_ldl - final_ldl in
  let rrr := min (22 * ldl_reduction) 60 in
  let rrr := if bp_controlled then rrr + 10 else rrr in
  let rrr := if smoking_cessation then rrr + 10 else rrr in
  let rrr := if lifestyle then rrr + 5 else rrr in
  let rrr := min rrr 80 in
  baseline_risk * (1 - rrr / 100).

Definition calculate_ldl_reduction (current_ldl : float)
    (pre_statin discharge_statin : string)
    (discharge_add_ons : list string) : float * float :=
  let statin_reduction :=
    of_int (Py.dict_get (Py.dict_get LDL_THERAPIES discharge_statin ∅)
              "reduction" 0%Z) in
  let statin_reduction :=
    if decide (pre_statin ≠ "None") then statin_reduction * 0.5
    else statin_reduction in
  let total_reduction := statin_reduction in
  let total_reduction :=
    if decide ("Ezetimibe" ∈ discharge_add_ons) then total_reduction + 20
    else total_reduction in
  let total_reduction :=
    if decide ("PCSK9 inhibitor" ∈ discharge_add_ons) then total_reduction + 60
    else total_reduction in
  let total_reduction :=
    if decide ("Inclisiran" ∈ discharge_add_ons) then total_reduction + 50
    else total_reduction in
  let projected_ldl := current_ldl * (1 - total_reduction / 100) in
  (projected_ldl, total_reduction).

Definition risk_tier (final_risk : float) : tier :=
  if PrimFloat.leb 30 final_risk then VeryHigh
  else if PrimFloat.leb 20 final_risk then High
  else Moderate.

End Binary64.

(** ** The specification's formulas

    Written from the prose of the specification, to be compared with the
    functions above. *)

Module Spec.

(** The Therapy Catalog: percent LDL reduction of a named therapy,
    0 for a name that is not listed. *)
Definition catalogReduction (name : string) : R :=
  if decide (name = "Atorvastatin 20 mg") then 40
  else if decide (name = "Atorvastatin 80 mg") then 50
  else if decide (name = "Rosuvastatin 10 mg") then 45
  else if decide (name = "Rosuvastatin 20 mg") then 55
  else 0.

(** The flat increment of an add-on when it is in the set. *)
Definition addOn (name : string) (pct : R) (addOns : list string) : R :=
  if decide (name ∈ addOns) then pct else 0.

(** Sum of the increments of the add-ons present. *)
Definition addOnReduction (addOns : list string) : R :=
  addOn "Ezetimibe" 20 addOns + addOn "PCSK9 inhibitor" 60 addOns
  + addOn "Inclisiran" 50 addOns.

Definition totalReduction (preExistingStatin newStatin : string)
    (addOns : list string) : R :=
  (if decide (preExistingStatin = "None") then catalogReduction newStatin
   else catalogReduction newStatin / 2)
  + addOnReduction addOns.

Definition projectLdl (currentLdl : R) (preExistingStatin newStatin : string)
    (addOns : list string) : R * R :=
  let t := totalReduction preExistingStatin newStatin addOns in
  (currentLdl * (1 - t / 100), t).

(** The capped relative risk reduction of the Risk Adjustment Engine. *)
Definition rrr (baselineLdl finalLdl : R)
    (bpControlled smokingCessation lifestyle : bool) : R :=
  Rmin (Rmin (22 * (baselineLdl - finalLdl)) 60
        + (if bpControlled then 10 else 0)
        + (if smokingCessation then 10 else 0)
        + (if lifestyle then 5 else 0))
       80.

Definition adjustRisk (baselineRisk baselineLdl finalLdl : R)
    (bpControlled smokingCessation lifestyle : bool) : R :=
  baselineRisk
  * (1 - rrr baselineLdl finalLdl bpControlled smokingCessation lifestyle / 100).

End Spec.

(** ** Input ranges and the order of risk factors *)

(** The clinical ranges of the numeric inputs of [calculate_smart_risk]. *)
Definition clinical_range (age sbp total_chol hdl egfr crp vasc_count : R) : Prop :=
  30 <= age <= 100 /\ 90 <= sbp <= 220 /\ 2.0 <= total_chol <= 10.0 /\
  0.5 <= hdl <= 3.0 /\ 15 <= egfr <= 120 /\ 0.0 <= crp <= 20.0 /\
  0 <= vasc_count <= 3.

(** The arguments of one call of [calculate_smart_risk]. *)
Record risk_inputs : Type := RiskInputs {
  in_age : R; in_sex : string; in_sbp : R; in_total_chol : R; in_hdl : R;
  in_smoker : bool; in_diabetes : bool; in_egfr : R; in_crp : R;
  in_vasc_count : R
}.

Definition smart_risk (i : risk_inputs) : option R :=
  calculate_smart_risk (in_age i) (in_sex i) (in_sbp i) (in_total_chol i)
    (in_hdl i) (in_smoker i) (in_diabetes i) (in_egfr i) (in_crp i)
    (in_vasc_count i).

Definition in_clinical_range (i : risk_inputs) : Prop :=
  clinical_range (in_age i) (in_sbp i) (in_total_chol i) (in_hdl i)
    (in_egfr i) (in_crp i) (in_vasc_count i).

(** [one_factor_worse i j]: [j] is [i] with exactly one input moved in the
    direction named by the constructor, every other input unchanged. *)
Inductive one_factor_worse : risk_inputs -> risk_inputs -> Prop :=
  | older a s b c h sm d e p v a' :
      a <= a' ->
      one_factor_worse (RiskInputs a s b c h sm d e p v)
                       (RiskInputs a' s b c h sm d e p v)
  | higher_sbp a s b c h sm d e p v b' :
      b <= b' ->
      one_factor_worse (RiskInputs a s b c h sm d e p v)
                       (RiskInputs a s b' c h sm d e p v)
  | higher_total_chol a s b c h sm d e p v c' :
      c <= c' ->
      one_factor_worse (RiskInputs a s b c h sm d e p v)
                       (RiskInputs a s b c' h sm d e p v)
  | more_territories a s b c h sm d e p v v' :
      v <= v' ->
      one_factor_worse (RiskInputs a s b c h sm d e p v)
                       (RiskInputs a s b c h sm d e p v')
  | starts_smoking a s b c h d e p v :
      one_factor_worse (RiskInputs a s b c h false d e p v)
                       (RiskInputs a s b c h true d e p v)
  | becomes_diabetic a s b c h sm e p v :
      one_factor_worse (RiskInputs a s b c h sm false e p v)
                       (RiskInputs a s b c h sm true e p v)
  | lower_hdl a s b c h sm d e p v h' :
      h' <= h ->
      one_factor_worse (RiskInputs a s b c h sm d e p v)
                       (RiskInputs a s b c h' sm d e p v)
  | lower_egfr a s b c h sm d e p v e' :
      e' <= e ->
      one_factor_worse (RiskInputs a s b c h sm d e p v)
                       (RiskInputs a s b c h sm d e' p v).

(** ** The gauge and the main script *)

(** Severity of a tier; also the position of its band in [bands]. *)
Definition tier_rank (t : tier) : nat :=
  match t with Moderate => 0 | High => 1 | VeryHigh => 2 end.

(** The local [bands] of [plot_risk_gauge]: start, end (degrees), colour. *)
Definition bands : list (R * R * string) :=
  [(0, 20, "green"); (20, 30, "orange"); (30, 100, "red")].

(** What [plot_risk_gauge] draws: one bar per band, given by its [left]
    edge and its width (radians) and its colour, and the needle.  The axes
    set-up and the text label are presentation and are left out. *)
Record figure : Type := Figure {
  bars : list (R * R * string);
  needle_angle : R
}.

Definition plot_risk_gauge (risk_value : R) : figure :=
  {| bars := map (fun '(start, end_, color) =>
                    (Py.radians start, Py.radians (end_ - start), color))
                 bands;
     needle_angle := Py.radians (Py.min (Py.max risk_value 0) 99) |}.

(** The values of the widgets of one run of the script.  Streamlit keeps
    every [number_input] and [slider] within its bounds: [widget_range]. *)
Record widgets : Type := Widgets {
  w_age : R; w_sex : string; w_diabetes : bool; w_smoker : bool;
  w_cad : bool; w_stroke : bool; w_pad : bool;
  w_total_chol : R; w_hdl : R; w_ldl : R; w_sbp : R; w_egfr : R; w_crp : R;
  w_include_crp : bool;
  w_bp_controlled : bool; w_smoking_cessation : bool; w_lifestyle : bool;
  w_pre_statin : string; w_discharge_statin : string;
  w_discharge_add_ons : list string;
  w_target_ldl : R; w_patient_name : string;
  w_submitted : bool
}.

Definition widget_range (w : widgets) : Prop :=
  30 <= w_age w <= 100 /\ 2.0 <= w_total_chol w <= 10.0 /\
  0.5 <= w_hdl w <= 3.0 /\ 0.5 <= w_ldl w <= 6.0 /\
  90 <= w_sbp w <= 220 /\ 15 <= w_egfr w <= 120 /\
  0.1 <= w_crp w <= 20.0.

(** What the main part of the page shows. *)
Inductive outcome : Type :=
  | PleaseComplete
      (* st.warning("Please complete all patient data to calculate risk.") *)
  | FormOnly (baseline_risk : R)
  | TreatmentImpact (baseline_risk projected_ldl total_reduction
                     final_risk : R) (recommendations : string)
                    (fig : figure).

(** The main script from [vasc_count] on: the HDL warning and the body. *)
Definition main (w : widgets) : bool * outcome :=
  let vasc_count := IZR (Py.sum [w_cad w; w_stroke w; w_pad w]) in
  let hdl_warning := if Rle_dec (w_total_chol w) (w_hdl w) then true else false in
  let crp_used := crp_used (w_crp w) (w_include_crp w) in
  let baseline_risk :=
    calculate_smart_risk (w_age w) (w_sex w) (w_sbp w) (w_total_chol w)
      (w_hdl w) (w_smoker w) (w_diabetes w) (w_egfr w) crp_used vasc_count in
  (hdl_warning,
   match baseline_risk with
   | Some risk =>
       if Py.truthy baseline_risk then
         if w_submitted w then
           let '(projected_ldl, total_reduction) :=
             calculate_ldl_reduction (w_ldl w) (w_pre_statin w)
               (w_discharge_statin w) (w_discharge_add_ons w) in
           let final_risk :=
             calculate_ldl_effect risk (w_ldl w) projected_ldl
               (w_bp_controlled w) (negb (w_smoker w)) (w_lifestyle w) in
           let recommendations := generate_recommendations final_risk in
           TreatmentImpact risk projected_ldl total_reduction final_risk
             recommendations (plot_risk_gauge final_risk)
         else FormOnly risk
       else PleaseComplete
   | None => PleaseComplete
   end).

(** The widgets at their default values, the form submitted or not: the
    first radio option, unchecked boxes except [lifestyle] and
    [include_crp], [index=0] and [index=2] of the two statin boxes, an
    empty multiselect and an empty text input. *)
Definition default_widgets (submitted : bool) : widgets :=
  {| w_age := 65; w_sex := "Male"; w_diabetes := false; w_smoker := false;
     w_cad := false; w_stroke := false; w_pad := false;
     w_total_chol := 5.0; w_hdl := 1.0; w_ldl := 3.5; w_sbp := 140;
     w_egfr := 80; w_crp := 2.0; w_include_crp := true;
     w_bp_controlled := false; w_smoking_cessation := false;
     w_lifestyle := true;
     w_pre_statin := "None"; w_discharge_statin := "Atorvastatin 80 mg";
     w_discharge_add_ons := [];
     w_target_ldl := 1.4; w_patient_name := "";
     w_submitted := submitted |}.

(** ** Basic facts on the built-ins *)

Lemma py_min_Rmin (a b : R) : Py.min a b = Rmin a b.
Proof.
  unfold Py.min, Rmin.
  destruct (Rlt_dec b a), (Rle_dec a b); lra.
Qed.

Lemma py_max_Rmax (a b : R) : Py.max a b = Rmax a b.
Proof.
  unfold Py.max, Rmax.
  destruct (Rlt_dec a b), (Rle_dec a b); lra.
Qed.

(** ** The therapy table *)

(** A key of the table is one of its four names. *)
Lemma LDL_THERAPIES_keys (name : string) (d : gmap string Z) :
  LDL_THERAPIES !! name = Some d ->
  name = "Atorvastatin 20 mg" \/ name = "Atorvastatin 80 mg" \/
  name = "Rosuvastatin 10 mg" \/ name = "Rosuvastatin 20 mg".
Proof.
  unfold LDL_THERAPIES. intros H.
  repeat (apply lookup_insert_Some in H as [[<- _] | [_ H]]; [tauto |]).
  apply lookup_singleton_Some in H as [<- _]. tauto.
Qed.

(** The two chained [.get] calls agree with the catalog of the
    specification on every name. *)
Lemma statin_lookup (name : string) :
  IZR (Py.dict_get (Py.dict_get LDL_THERAPIES name ∅) "reduction" 0%Z)
  = Spec.catalogReduction name.
Proof.
  unfold Spec.catalogReduction, Py.dict_get.
  repeat (case_decide; [subst name; reflexivity |]).
  destruct (LDL_THERAPIES !! name) as [d |] eqn:L; [| reflexivity].
  apply LDL_THERAPIES_keys in L. tauto.
Qed.

(** A name outside the table reads as 0. *)
Lemma statin_lookup_absent (name : string) :
  LDL_THERAPIES !! name = None ->
  IZR (Py.dict_get (Py.dict_get LDL_THERAPIES name ∅) "reduction" 0%Z) = 0.
Proof.
  intros L. unfold Py.dict_get. rewrite L. reflexivity.
Qed.

(** The total reduction computed by the code is the specification's. *)
Lemma total_reduction_spec (current_ldl : R) (pre_statin discharge_statin : string)
    (discharge_add_ons : list string) :
  (calculate_ldl_reduction current_ldl pre_statin discharge_statin
     discharge_add_ons).2
  = Spec.totalReduction pre_statin discharge_statin discharge_add_ons.
Proof.
  unfold calculate_ldl_reduction, Spec.totalReduction, Spec.addOnReduction,
    Spec.addOn.
  cbn [snd]. rewrite statin_lookup.
  repeat case_decide; try contradiction; lra.
Qed.

(** The pair computed by the code is the specification's. *)
Lemma calculate_ldl_reduction_spec (current_ldl : R)
    (pre_statin discharge_statin : string) (discharge_add_ons : list string) :
  calculate_ldl_reduction current_ldl pre_statin discharge_statin
    discharge_add_ons
  = Spec.projectLdl current_ldl pre_statin discharge_statin discharge_add_ons.
Proof.
  unfold Spec.projectLdl.
  rewrite <- (total_reduction_spec current_ldl pre_statin discharge_statin
                discharge_add_ons).
  reflexivity.
Qed.

(** Decides the tests of a call on literal strings and lists. *)
Ltac absurd_literal :=
  match goal with
  | H : ?x <> ?x |- _ => exact (H eq_refl)
  | H : @eq string _ _ |- _ => discriminate H
  | H : _ ∈ _ |- _ =>
      repeat (apply elem_of_cons in H as [H | H]; [discriminate H |]);
      exact (not_elem_of_nil _ H)
  | H : _ ∉ _ |- _ =>
      apply H; repeat first [apply list_elem_of_here | apply list_elem_of_further]
  end.

Ltac decide_literals := repeat (case_decide; try solve [exfalso; absurd_literal]).

(** ** LDL projection *)

(** C2: [calculate_ldl_reduction] returns the specification's pair: the
    catalog reduction of the new statin (0 for an unlisted name), halved
    when the pre-existing statin is not "None", plus 20, 60 and 50 for
    Ezetimibe, PCSK9 inhibitor and Inclisiran, uncapped, and
    [current_ldl * (1 - total / 100)]; the two worked examples give
    (2.5, 50) and (2.625, 47.5). *)
Theorem calculate_ldl_reduction_formula :
  (forall (current_ldl : R) (pre_statin discharge_statin : string)
          (discharge_add_ons : list string),
      calculate_ldl_reduction current_ldl pre_statin discharge_statin
        discharge_add_ons
      = Spec.projectLdl current_ldl pre_statin discharge_statin
          discharge_add_ons)
  /\ calculate_ldl_reduction 5.0 "None" "Atorvastatin 80 mg" [] = (2.5, 50)
  /\ calculate_ldl_reduction 5.0 "Atorvastatin 20 mg" "Rosuvastatin 20 mg"
       ["Ezetimibe"] = (2.625, 47.5).
Proof.
  split; [exact calculate_ldl_reduction_spec |].
  rewrite !calculate_ldl_reduction_spec.
  unfold Spec.projectLdl, Spec.totalReduction, Spec.addOnReduction, Spec.addOn,
    Spec.catalogReduction.
  split; decide_literals; f_equal; lra.
Qed.

Lemma catalogReduction_range (name : string) :
  0 <= Spec.catalogReduction name <= 55.
Proof. unfold Spec.catalogReduction. repeat case_decide; lra. Qed.

Lemma addOn_nonneg (name : string) (pct : R) (addOns : list string) :
  0 <= pct -> 0 <= Spec.addOn name pct addOns.
Proof. unfold Spec.addOn. case_decide; lra. Qed.

Lemma totalReduction_nonneg (pre new : string) (addOns : list string) :
  0 <= Spec.totalReduction pre new addOns.
Proof.
  unfold Spec.totalReduction, Spec.addOnReduction.
  pose proof (catalogReduction_range new).
  pose proof (addOn_nonneg "Ezetimibe" 20 addOns).
  pose proof (addOn_nonneg "PCSK9 inhibitor" 60 addOns).
  pose proof (addOn_nonneg "Inclisiran" 50 addOns).
  case_decide; lra.
Qed.

(** C6: a therapy name that is not a key of [LDL_THERAPIES] reads as a
    reduction of exactly 0, and the function still returns its pair, made
    of the add-on increments alone. *)
Theorem unlisted_statin_contributes_zero (discharge_statin : string) :
  LDL_THERAPIES !! discharge_statin = None ->
  IZR (Py.dict_get (Py.dict_get LDL_THERAPIES discharge_statin ∅)
         "reduction" 0%Z) = 0
  /\ forall (current_ldl : R) (pre_statin : string)
            (discharge_add_ons : list string),
       calculate_ldl_reduction current_ldl pre_statin discharge_statin
         discharge_add_ons
       = (current_ldl * (1 - Spec.addOnReduction discharge_add_ons / 100),
          Spec.addOnReduction discharge_add_ons).
Proof.
  intros L. pose proof (statin_lookup_absent _ L) as Z0.
  split; [exact Z0 |].
  intros c p a.
  unfold calculate_ldl_reduction, Spec.addOnReduction, Spec.addOn.
  rewrite Z0.
  repeat case_decide; f_equal; lra.
Qed.

(** The "None" sentinel and an arbitrary unlisted name. *)
Lemma unlisted_statin_contributes_zero_witness :
  LDL_THERAPIES !! "None" = None
  /\ calculate_ldl_reduction 3.5 "None" "None" ["Ezetimibe"]
     = (3.5 * (1 - Spec.addOnReduction ["Ezetimibe"] / 100),
        Spec.addOnReduction ["Ezetimibe"])
  /\ calculate_ldl_reduction 3.5 "None" "Simvastatin 40 mg" []
     = (3.5 * (1 - Spec.addOnReduction [] / 100), Spec.addOnReduction []).
Proof.
  split; [reflexivity |].
  split.
  - apply (unlisted_statin_contributes_zero "None"). reflexivity.
  - apply (unlisted_statin_contributes_zero "Simvastatin 40 mg"). reflexivity.
Defined.

(** C7: with a positive current LDL, any statin and both the PCSK9
    inhibitor and Inclisiran among the add-ons, the total reduction exceeds
    100 and the projected LDL is strictly negative: nothing floors it. *)
Theorem stacked_add_ons_project_negative_ldl (current_ldl : R)
    (pre_statin discharge_statin : string) (discharge_add_ons : list string) :
  0 < current_ldl ->
  "PCSK9 inhibitor" ∈ discharge_add_ons ->
  "Inclisiran" ∈ discharge_add_ons ->
  100 < (calculate_ldl_reduction current_ldl pre_statin discharge_statin
           discharge_add_ons).2
  /\ (calculate_ldl_reduction current_ldl pre_statin discharge_statin
        discharge_add_ons).1 < 0.
Proof.
  intros Hpos Hp Hi.
  rewrite calculate_ldl_reduction_spec.
  unfold Spec.projectLdl. cbn [fst snd].
  assert (T : 110 <= Spec.totalReduction pre_statin discharge_statin
                       discharge_add_ons).
  { unfold Spec.totalReduction, Spec.addOnReduction, Spec.addOn.
    pose proof (catalogReduction_range discharge_statin).
    repeat case_decide; try contradiction; lra. }
  split; [lra | nra].
Qed.

(** The specification's example: a catalog statin, no pre-existing statin,
    both injectables. *)
Lemma stacked_add_ons_project_negative_ldl_witness :
  100 < (calculate_ldl_reduction 3.5 "None" "Atorvastatin 80 mg"
           ["PCSK9 inhibitor"; "Inclisiran"]).2
  /\ (calculate_ldl_reduction 3.5 "None" "Atorvastatin 80 mg"
        ["PCSK9 inhibitor"; "Inclisiran"]).1 < 0.
Proof.
  apply (stacked_add_ons_project_negative_ldl 3.5 "None" "Atorvastatin 80 mg"
           ["PCSK9 inhibitor"; "Inclisiran"]).
  - lra.
  - apply list_elem_of_here.
  - apply list_elem_of_further, list_elem_of_here.
Defined.

(** C9: the total reduction is never negative, so a non-negative current
    LDL is never projected above itself. *)
Theorem projection_never_increases_ldl (current_ldl : R)
    (pre_statin discharge_statin : string) (discharge_add_ons : list string) :
  0 <= (calculate_ldl_reduction current_ldl pre_statin discharge_statin
          discharge_add_ons).2
  /\ (0 <= current_ldl ->
      (calculate_ldl_reduction current_ldl pre_statin discharge_statin
         discharge_add_ons).1 <= current_ldl).
Proof.
  rewrite calculate_ldl_reduction_spec.
  unfold Spec.projectLdl. cbn [fst snd].
  pose proof (totalReduction_nonneg pre_statin discharge_statin
                discharge_add_ons) as T.
  split; [exact T |].
  intros Hc. nra.
Qed.

Lemma projection_never_increases_ldl_witness :
  0 <= (calculate_ldl_reduction 3.5 "Atorvastatin 20 mg" "Rosuvastatin 10 mg"
          ["Ezetimibe"]).2
  /\ (calculate_ldl_reduction 3.5 "Atorvastatin 20 mg" "Rosuvastatin 10 mg"
        ["Ezetimibe"]).1 <= 3.5.
Proof.
  destruct (projection_never_increases_ldl 3.5 "Atorvastatin 20 mg"
              "Rosuvastatin 10 mg" ["Ezetimibe"]) as [T P].
  split; [exact T | apply P; lra].
Defined.

(** ** Risk adjustment *)

Lemma calculate_ldl_effect_spec (baseline_risk baseline_ldl final_ldl : R)
    (bp_controlled smoking_cessation lifestyle : bool) :
  calculate_ldl_effect baseline_risk baseline_ldl final_ldl bp_controlled
    smoking_cessation lifestyle
  = Spec.adjustRisk baseline_risk baseline_ldl final_ldl bp_controlled
      smoking_cessation lifestyle.
Proof.
  unfold calculate_ldl_effect, Spec.adjustRisk, Spec.rrr.
  rewrite !py_min_Rmin.
  destruct bp_controlled, smoking_cessation, lifestyle;
    rewrite ?Rplus_0_r; reflexivity.
Qed.

(** C3: [calculate_ldl_effect] returns
    [baseline_risk * (1 - rrr / 100)] with
    [rrr = min (min (22 * (baseline_ldl - final_ldl)) 60 + bonuses) 80],
    the bonuses being 10, 10 and 5; on (30, 4.0, 2.0, True, True, True)
    [rrr] is 69 and the result 9.3. *)
Theorem calculate_ldl_effect_formula :
  (forall (baseline_risk baseline_ldl final_ldl : R)
          (bp_controlled smoking_cessation lifestyle : bool),
      calculate_ldl_effect baseline_risk baseline_ldl final_ldl bp_controlled
        smoking_cessation lifestyle
      = baseline_risk
        * (1 - Rmin (Rmin (22 * (baseline_ldl - final_ldl)) 60
                     + (if bp_controlled then 10 else 0)
                     + (if smoking_cessation then 10 else 0)
                     + (if lifestyle then 5 else 0)) 80 / 100))
  /\ Spec.rrr 4.0 2.0 true true true = 69
  /\ calculate_ldl_effect 30 4.0 2.0 true true true = 9.3.
Proof.
  split; [intros; apply calculate_ldl_effect_spec |].
  assert (E : Spec.rrr 4.0 2.0 true true true = 69).
  { unfold Spec.rrr.
    replace (22 * (4.0 - 2.0)) with 44 by lra.
    rewrite (Rmin_left 44 60) by lra.
    replace (44 + 10 + 10 + 5) with 69 by lra.
    apply Rmin_left. lra. }
  split; [exact E |].
  rewrite calculate_ldl_effect_spec. unfold Spec.adjustRisk.
  rewrite E. lra.
Qed.

Lemma calculate_ldl_effect_formula_witness :
  calculate_ldl_effect 30 4.0 2.0 true true true = 30 * (1 - 69 / 100).
Proof.
  destruct calculate_ldl_effect_formula as (_ & _ & E).
  rewrite E. lra.
Defined.

(** ** Recommendation tiers *)

Lemma risk_tier_cases (final_risk : R) :
  (30 <= final_risk /\ risk_tier final_risk = VeryHigh)
  \/ (20 <= final_risk < 30 /\ risk_tier final_risk = High)
  \/ (final_risk < 20 /\ risk_tier final_risk = Moderate).
Proof.
  unfold risk_tier.
  destruct (Rle_dec 30 final_risk); [left; split; [lra | reflexivity] |].
  destruct (Rle_dec 20 final_risk); right; [left | right];
    (split; [lra | reflexivity]).
Qed.

Lemma tier_text_inj (t1 t2 : tier) : tier_text t1 = tier_text t2 -> t1 = t2.
Proof. destruct t1, t2; intros H; first [reflexivity | discriminate H]. Qed.

(** C4: [generate_recommendations] is total and picks its branch by the
    thresholds 30 and 20, each inclusive below: at least 30 is Very High,
    from 20 up to but excluding 30 is High, below 20 is Moderate; the three
    texts differ, so each risk gets exactly one tier.  35 and 30 are Very
    High, 20 is High, 19.9 is Moderate. *)
Theorem generate_recommendations_tiers :
  (forall final_risk : R,
      (30 <= final_risk ->
       generate_recommendations final_risk = tier_text VeryHigh)
      /\ (20 <= final_risk < 30 ->
          generate_recommendations final_risk = tier_text High)
      /\ (final_risk < 20 ->
          generate_recommendations final_risk = tier_text Moderate))
  /\ (forall t1 t2 : tier, tier_text t1 = tier_text t2 -> t1 = t2)
  /\ generate_recommendations 35 = tier_text VeryHigh
  /\ generate_recommendations 30 = tier_text VeryHigh
  /\ generate_recommendations 20 = tier_text High
  /\ generate_recommendations 19.9 = tier_text Moderate.
Proof.
  assert (G : forall final_risk : R,
      (30 <= final_risk ->
       generate_recommendations final_risk = tier_text VeryHigh)
      /\ (20 <= final_risk < 30 ->
          generate_recommendations final_risk = tier_text High)
      /\ (final_risk < 20 ->
          generate_recommendations final_risk = tier_text Moderate)).
  { intros r. unfold generate_recommendations.
    destruct (risk_tier_cases r) as [[H ->] | [[H ->] | [H ->]]];
      repeat split; intros; first [reflexivity | lra]. }
  split; [exact G |].
  split; [exact tier_text_inj |].
  repeat split.
  - apply (G 35); lra.
  - apply (G 30); lra.
  - apply (G 20); lra.
  - apply (G 19.9); lra.
Qed.

Lemma generate_recommendations_tiers_witness :
  generate_recommendations 42.5 = tier_text VeryHigh
  /\ generate_recommendations 29.9 = tier_text High
  /\ generate_recommendations 0 = tier_text Moderate.
Proof.
  destruct generate_recommendations_tiers as (G & _).
  split; [apply (G 42.5); lra |].
  split; [apply (G 29.9); lra | apply (G 0); lra].
Defined.

(** ** Baseline risk: sex and CRP *)

(** C10: only the exact string "Male" sets [sex_val]; every other sex
    string gives the result of "Female". *)
Theorem sex_other_than_male_scores_as_female (sex : string) (age : R)
    (sbp total_chol hdl : R) (smoker diabetes : bool)
    (egfr crp vasc_count : R) :
  sex <> "Male" ->
  calculate_smart_risk age sex sbp total_chol hdl smoker diabetes egfr crp
    vasc_count
  = calculate_smart_risk age "Female" sbp total_chol hdl smoker diabetes egfr
      crp vasc_count.
Proof.
  intros Hs. unfold calculate_smart_risk, lp.
  rewrite (decide_False (P := sex = "Male")) by exact Hs.
  rewrite (decide_False (P := "Female" = "Male")) by discriminate.
  reflexivity.
Qed.

Lemma sex_other_than_male_scores_as_female_witness :
  calculate_smart_risk 65 "male" 140 5.0 1.0 false false 80 2.0 1
  = calculate_smart_risk 65 "Female" 140 5.0 1.0 false false 80 2.0 1.
Proof.
  apply (sex_other_than_male_scores_as_female "male"). discriminate.
Defined.

Lemma py_max_floor (crp : R) : crp <= 0.1 -> Py.max crp 0.1 = 0.1.
Proof. intros H. unfold Py.max. destruct (Rlt_dec crp 0.1); lra. Qed.

(** C8: a CRP of at most 0.1 (0.0 when the caller excludes CRP) is raised
    to 0.1 before the logarithm: the log term is [ln 1.1], which is not 0,
    and the result is that of [crp = 0.1]. *)
Theorem crp_is_floored_at_one_tenth (crp : R) (age : R) (sex : string)
    (sbp total_chol hdl : R) (smoker diabetes : bool) (egfr vasc_count : R) :
  crp <= 0.1 ->
  crp_log crp = Some (ln 1.1)
  /\ 0 < ln 1.1
  /\ calculate_smart_risk age sex sbp total_chol hdl smoker diabetes egfr crp
       vasc_count
     = calculate_smart_risk age sex sbp total_chol hdl smoker diabetes egfr
         0.1 vasc_count.
Proof.
  intros Hc.
  assert (E : crp_log crp = crp_log 0.1).
  { unfold crp_log.
    rewrite (py_max_floor crp Hc), (py_max_floor 0.1) by lra.
    reflexivity. }
  split; [| split].
  - rewrite E. unfold crp_log, Py.math_log.
    rewrite (py_max_floor 0.1) by lra.
    destruct (Rlt_dec 0 (0.1 + 1)); [| lra].
    do 2 f_equal. lra.
  - rewrite <- ln_1. apply ln_increasing; lra.
  - unfold calculate_smart_risk. rewrite E. reflexivity.
Qed.

(** CRP excluded by the caller: [crp_used] is 0.0. *)
Lemma crp_is_floored_at_one_tenth_witness :
  crp_log (crp_used 2.0 false) = Some (ln 1.1)
  /\ calculate_smart_risk 65 "Male" 140 5.0 1.0 false false 80
       (crp_used 2.0 false) 1
     = calculate_smart_risk 65 "Male" 140 5.0 1.0 false false 80 0.1 1.
Proof.
  destruct (crp_is_floored_at_one_tenth (crp_used 2.0 false) 65 "Male" 140
              5.0 1.0 false false 80 1) as (L & _ & E).
  - unfold crp_used. lra.
  - split; [exact L | exact E].
Defined.

(** ** Baseline risk: the result is defined and clamped *)

Lemma clamp_range (x : R) : 1 <= Py.max 1.0 (Py.min 99.0 x) <= 99.
Proof.
  unfold Py.max, Py.min.
  destruct (Rlt_dec x 99.0); destruct (Rlt_dec 1.0 _); lra.
Qed.

Lemma clamp_mono (x y : R) :
  x <= y -> Py.max 1.0 (Py.min 99.0 x) <= Py.max 1.0 (Py.min 99.0 y).
Proof.
  intros H. rewrite !py_max_Rmax, !py_min_Rmin.
  apply Rle_max_compat_l, Rle_min_compat_l, H.
Qed.

Lemma exp_nat_le_pow3 (n : nat) : exp (INR n) <= 3 ^ n.
Proof.
  induction n as [| n IH].
  - simpl. rewrite exp_0. lra.
  - rewrite S_INR, exp_plus. simpl pow.
    pose proof exp_le_3. pose proof (exp_pos (INR n)). pose proof (exp_pos 1).
    nra.
Qed.

Lemma pow3_fits_double : 3 ^ 15 <= Py.float_max.
Proof.
  unfold Py.float_max. rewrite pow_IZR.
  apply IZR_le. vm_compute. discriminate.
Qed.

(** [math.exp] does not overflow up to 15. *)
Lemma math_exp_defined (x : R) : x <= 15 -> Py.math_exp x = Some (exp x).
Proof.
  intros H. unfold Py.math_exp, Py.finite.
  destruct (Rle_dec (Rabs (exp x)) Py.float_max) as [_ | N]; [reflexivity |].
  exfalso. apply N.
  rewrite Rabs_pos_eq by (left; apply exp_pos).
  assert (exp x <= exp 15).
  { destruct H as [H | ->]; [left; apply exp_increasing, H | right; reflexivity]. }
  pose proof (exp_nat_le_pow3 15) as P.
  replace (INR 15) with 15 in P by (simpl; lra).
  pose proof pow3_fits_double. lra.
Qed.

Lemma exp_le (x y : R) : x <= y -> exp x <= exp y.
Proof.
  intros [H | ->]; [left; apply exp_increasing, H | right; reflexivity].
Qed.

Lemma ln_09_neg : ln 0.900 < 0.
Proof. rewrite <- ln_1. apply ln_increasing; lra. Qed.

(** [0.900 ** e] for a non-negative exponent: defined, in (0, 1]. *)
Lemma float_pow_defined (e : R) :
  0 <= e ->
  Py.float_pow 0.900 e = Some (Rpower 0.900 e) /\ 0 < Rpower 0.900 e <= 1.
Proof.
  intros He.
  assert (B : 0 < Rpower 0.900 e <= 1).
  { unfold Rpower. split; [apply exp_pos |].
    rewrite <- exp_0. apply exp_le.
    pose proof ln_09_neg. nra. }
  split; [| exact B].
  unfold Py.float_pow, Py.finite.
  destruct (Rlt_dec 0 0.900) as [_ | N]; [| lra].
  destruct (Rle_dec (Rabs (Rpower 0.900 e)) Py.float_max) as [_ | N];
    [reflexivity |].
  exfalso. apply N. rewrite Rabs_pos_eq by lra.
  pose proof pow3_fits_double. lra.
Qed.

Lemma float_pow_antitone (e1 e2 : R) :
  e1 <= e2 -> Rpower 0.900 e2 <= Rpower 0.900 e1.
Proof.
  intros H. unfold Rpower. apply exp_le.
  pose proof ln_09_neg. nra.
Qed.

(** [risk10] is defined whenever [lp] is at most 20.8, and is then a
    probability below 1. *)
Lemma risk10_defined (l : R) :
  l <= 20.8 ->
  risk10 l = Some (1 - Rpower 0.900 (exp (l - 5.8)))
  /\ 0 <= 1 - Rpower 0.900 (exp (l - 5.8)) < 1.
Proof.
  intros H. unfold risk10.
  rewrite math_exp_defined by lra. cbn [mbind option_bind].
  destruct (float_pow_defined (exp (l - 5.8))) as [-> B];
    [left; apply exp_pos |].
  cbn [mbind option_bind]. split; [reflexivity | lra].
Qed.

Lemma risk10_mono (l1 l2 : R) :
  l1 <= l2 ->
  1 - Rpower 0.900 (exp (l1 - 5.8)) <= 1 - Rpower 0.900 (exp (l2 - 5.8)).
Proof.
  intros H.
  assert (exp (l1 - 5.8) <= exp (l2 - 5.8)) as E by (apply exp_le; lra).
  pose proof (float_pow_antitone _ _ E). lra.
Qed.

Lemma ln_succ_le (x : R) : 0 < x -> 0 <= ln (x + 1) <= x.
Proof.
  intros Hx. split.
  - rewrite <- ln_1. left. apply ln_increasing; lra.
  - rewrite <- (ln_exp x) at 2. left. apply ln_increasing; [lra |].
    pose proof (exp_ineq1 x). lra.
Qed.

(** [crp_log] never raises; it is between 0 and 20 for a CRP up to 20. *)
Lemma crp_log_defined (crp : R) :
  crp_log crp = Some (ln (Py.max crp 0.1 + 1))
  /\ (crp <= 20 -> 0 <= ln (Py.max crp 0.1 + 1) <= 20).
Proof.
  assert (M : 0.1 <= Py.max crp 0.1).
  { unfold Py.max. destruct (Rlt_dec crp 0.1); lra. }
  split.
  - unfold crp_log, Py.math_log.
    destruct (Rlt_dec 0 (Py.max crp 0.1 + 1)); [reflexivity | lra].
  - intros Hc.
    assert (Py.max crp 0.1 <= 20).
    { unfold Py.max. destruct (Rlt_dec crp 0.1); lra. }
    pose proof (ln_succ_le (Py.max crp 0.1)). lra.
Qed.

(** In the clinical ranges [lp] stays below the overflow guard of
    [risk10]. *)
Lemma lp_bounded (age : R) (sex : string) (sbp total_chol hdl : R)
    (smoker diabetes : bool) (egfr crp vasc_count cl : R) :
  clinical_range age sbp total_chol hdl egfr crp vasc_count ->
  cl <= 20 ->
  lp age sex sbp total_chol hdl smoker diabetes egfr cl vasc_count <= 20.8.
Proof.
  unfold clinical_range, lp. intros (? & ? & ? & ? & ? & ? & ?) ?.
  destruct (decide (sex = "Male")), smoker, diabetes; lra.
Qed.

(** The value of [calculate_smart_risk] in the clinical ranges. *)
Lemma calculate_smart_risk_defined (age : R) (sex : string)
    (sbp total_chol hdl : R) (smoker diabetes : bool)
    (egfr crp vasc_count : R) :
  clinical_range age sbp total_chol hdl egfr crp vasc_count ->
  calculate_smart_risk age sex sbp total_chol hdl smoker diabetes egfr crp
    vasc_count
  = Some (Py.max 1.0 (Py.min 99.0 (Py.round
      ((1 - Rpower 0.900
              (exp (lp age sex sbp total_chol hdl smoker diabetes egfr
                      (ln (Py.max crp 0.1 + 1)) vasc_count - 5.8)))
       * 100) 1))).
Proof.
  intros Hr. unfold calculate_smart_risk.
  destruct (crp_log_defined crp) as [-> B]. cbn [mbind option_bind].
  assert (crp <= 20) as Hc by (unfold clinical_range in Hr; lra).
  destruct (risk10_defined
              (lp age sex sbp total_chol hdl smoker diabetes egfr
                 (ln (Py.max crp 0.1 + 1)) vasc_count)) as [-> _].
  { apply (lp_bounded _ _ _ _ _ _ _ _ crp); [exact Hr | apply B, Hc]. }
  reflexivity.
Qed.

(** C1: in the clinical ranges [calculate_smart_risk] returns a number
    (no exception is raised) and that number is between 1.0 and 99.0, so
    neither 0 nor 100. *)
Theorem calculate_smart_risk_in_range (age : R) (sex : string)
    (sbp total_chol hdl : R) (smoker diabetes : bool)
    (egfr crp vasc_count : R) :
  clinical_range age sbp total_chol hdl egfr crp vasc_count ->
  exists r : R,
    calculate_smart_risk age sex sbp total_chol hdl smoker diabetes egfr crp
      vasc_count = Some r
    /\ 1.0 <= r <= 99.0 /\ r <> 0 /\ r <> 100.
Proof.
  intros Hr. eexists. split.
  - apply calculate_smart_risk_defined, Hr.
  - match goal with |- context [Py.max 1.0 (Py.min 99.0 ?x)] =>
      pose proof (clamp_range x) end.
    repeat split; lra.
Qed.

Lemma calculate_smart_risk_in_range_witness :
  exists r : R,
    calculate_smart_risk 65 "Male" 140 5.0 1.0 true false 80 2.0 1 = Some r
    /\ 1.0 <= r <= 99.0 /\ r <> 0 /\ r <> 100.
Proof.
  apply (calculate_smart_risk_in_range 65 "Male" 140 5.0 1.0 true false 80
           2.0 1).
  unfold clinical_range. lra.
Defined.

(** ** Baseline risk: monotonicity *)

Lemma round_half_even_mono (x y : R) :
  x <= y -> (Py.round_half_even x <= Py.round_half_even y)%Z.
Proof.
  intros H. pose proof (Zfloor_le x y H) as F.
  pose proof (Zfloor_bound x) as Bx. pose proof (Zfloor_bound y) as By.
  unfold Py.round_half_even.
  destruct (Z.eq_dec (Zfloor x) (Zfloor y)) as [E | N].
  - rewrite E in *.
    repeat match goal with
           | |- context [Rlt_dec ?a ?b] => destruct (Rlt_dec a b)
           | |- context [Z.even ?z] => destruct (Z.even z)
           end; first [lia | exfalso; lra].
  - repeat match goal with
           | |- context [Rlt_dec ?a ?b] => destruct (Rlt_dec a b)
           | |- context [Z.even ?z] => destruct (Z.even z)
           end; lia.
Qed.

Lemma py_round_mono (x y : R) (ndigits : nat) :
  x <= y -> Py.round x ndigits <= Py.round y ndigits.
Proof.
  intros H. unfold Py.round.
  assert (P : 0 < 10 ^ ndigits) by (apply pow_lt; lra).
  apply Rmult_le_compat_r; [left; apply Rinv_0_lt_compat, P |].
  apply IZR_le, round_half_even_mono.
  apply Rmult_le_compat_r; [lra | exact H].
Qed.

(** The clamped, rounded percentage grows with [lp]. *)
Lemma reported_risk_mono (l1 l2 : R) :
  l1 <= l2 ->
  Py.max 1.0 (Py.min 99.0 (Py.round
    ((1 - Rpower 0.900 (exp (l1 - 5.8))) * 100) 1))
  <= Py.max 1.0 (Py.min 99.0 (Py.round
       ((1 - Rpower 0.900 (exp (l2 - 5.8))) * 100) 1)).
Proof.
  intros H. apply clamp_mono, py_round_mono.
  pose proof (risk10_mono l1 l2 H). lra.
Qed.

(** [lp] grows along [one_factor_worse]. *)
Lemma lp_mono (i j : risk_inputs) (cl : R) :
  one_factor_worse i j ->
  lp (in_age i) (in_sex i) (in_sbp i) (in_total_chol i) (in_hdl i)
     (in_smoker i) (in_diabetes i) (in_egfr i) cl (in_vasc_count i)
  <= lp (in_age j) (in_sex j) (in_sbp j) (in_total_chol j) (in_hdl j)
        (in_smoker j) (in_diabetes j) (in_egfr j) cl (in_vasc_count j).
Proof.
  intros W. destruct W; unfold lp; cbn;
    repeat match goal with
           | |- context [decide ?P] => destruct (decide P)
           | b : bool |- _ => destruct b
           end; lra.
Qed.

Lemma one_factor_worse_same_crp (i j : risk_inputs) :
  one_factor_worse i j -> in_crp i = in_crp j.
Proof. intros W. destruct W; reflexivity. Qed.

(** C5: with every other input held fixed and both inputs in the clinical
    ranges, the result does not decrease when age, SBP, total cholesterol
    or the vascular count goes up or when the smoker or the diabetic flag
    is turned on, and does not increase when HDL or eGFR goes up. *)
Theorem calculate_smart_risk_monotone (i j : risk_inputs) :
  in_clinical_range i -> in_clinical_range j -> one_factor_worse i j ->
  exists r1 r2 : R,
    smart_risk i = Some r1 /\ smart_risk j = Some r2 /\ r1 <= r2.
Proof.
  intros Ri Rj W. unfold smart_risk.
  rewrite (calculate_smart_risk_defined _ _ _ _ _ _ _ _ _ _ Ri).
  rewrite (calculate_smart_risk_defined _ _ _ _ _ _ _ _ _ _ Rj).
  do 2 eexists. split; [reflexivity |]. split; [reflexivity |].
  apply reported_risk_mono.
  rewrite <- (one_factor_worse_same_crp i j W).
  apply lp_mono, W.
Qed.

Lemma calculate_smart_risk_monotone_witness :
  exists r1 r2 : R,
    smart_risk (RiskInputs 65 "Male" 140 5.0 1.0 false false 80 2.0 1)
    = Some r1
    /\ smart_risk (RiskInputs 65 "Male" 140 5.0 1.0 false false 45 2.0 1)
       = Some r2
    /\ r1 <= r2.
Proof.
  apply (calculate_smart_risk_monotone
           (RiskInputs 65 "Male" 140 5.0 1.0 false false 80 2.0 1)
           (RiskInputs 65 "Male" 140 5.0 1.0 false false 45 2.0 1)).
  - unfold in_clinical_range, clinical_range. cbn. lra.
  - unfold in_clinical_range, clinical_range. cbn. lra.
  - apply lower_egfr. lra.
Defined.

(** ** The worked examples on IEEE-754 doubles

    The decimal constants below denote the nearest double, as Python's
    literals do. *)

#[warnings="-inexact-float"]
Lemma binary64_worked_examples :
  Binary64.calculate_ldl_reduction 5.0 "None" "Atorvastatin 80 mg" []
  = (2.5, 50)%float
  /\ Binary64.calculate_ldl_reduction 5.0 "Atorvastatin 20 mg"
       "Rosuvastatin 20 mg" ["Ezetimibe"] = (2.625, 47.5)%float
  /\ Binary64.calculate_ldl_effect 30 4.0 2.0 true true true = 9.3%float.
Proof. repeat split; vm_compute; reflexivity. Qed.

#[warnings="-inexact-float"]
Lemma binary64_tier_examples :
  Binary64.risk_tier 35 = VeryHigh /\ Binary64.risk_tier 30 = VeryHigh
  /\ Binary64.risk_tier 20 = High /\ Binary64.risk_tier 19.9 = Moderate.
Proof. repeat split; vm_compute; reflexivity. Qed.

Lemma binary64_stacked_add_ons :
  Binary64.calculate_ldl_reduction 3.5 "None" "Atorvastatin 80 mg"
    ["PCSK9 inhibitor"; "Inclisiran"]
  = (3.5 * (1 - 160 / 100), 160)%float
  /\ PrimFloat.ltb (3.5 * (1 - 160 / 100)) 0 = true.
Proof. split; vm_compute; reflexivity. Qed.

Lemma binary64_ltb_leb (a b : float) :
  PrimFloat.ltb a b = true -> PrimFloat.leb a b = true.
Proof.
  rewrite ltb_spec, leb_spec. unfold SFltb, SFleb.
  destruct (SFcompare (Prim2SF a) (Prim2SF b)) as [[] |]; congruence.
Qed.

(** On doubles the clamp bounds every value, so whatever the library's
    [log], [exp] and [pow] return, the reported risk is in [1.0, 99.0]. *)
Lemma binary64_clamp_range (rounded : float) :
  PrimFloat.leb 1 (Binary64.clamp rounded) = true
  /\ PrimFloat.leb (Binary64.clamp rounded) 99 = true.
Proof.
  unfold Binary64.clamp, Binary64.min, Binary64.max.
  destruct (PrimFloat.ltb rounded 99) eqn:U.
  - destruct (PrimFloat.ltb 1 rounded) eqn:L.
    + split; apply binary64_ltb_leb; assumption.
    + split; reflexivity.
  - split; reflexivity.
Qed.

(** ** Baseline risk: the error path and the grid of results *)

(** The only exception [calculate_smart_risk] can meet is the overflow of
    [math.exp]. *)
Lemma risk10_none_iff (l : R) :
  risk10 l = None <-> Py.float_max < exp (l - 5.8).
Proof.
  unfold risk10, Py.math_exp, Py.finite.
  rewrite Rabs_pos_eq by (left; apply exp_pos).
  destruct (Rle_dec (exp (l - 5.8)) Py.float_max) as [L | N].
  - cbn [mbind option_bind].
    destruct (float_pow_defined (exp (l - 5.8))) as [-> _];
      [left; apply exp_pos |].
    cbn [mbind option_bind]. split; [discriminate | lra].
  - cbn [mbind option_bind]. split; [lra | reflexivity].
Qed.

Lemma calculate_smart_risk_none_iff (age : R) (sex : string)
    (sbp total_chol hdl : R) (smoker diabetes : bool)
    (egfr crp vasc_count : R) :
  calculate_smart_risk age sex sbp total_chol hdl smoker diabetes egfr crp
    vasc_count = None
  <-> risk10 (lp age sex sbp total_chol hdl smoker diabetes egfr
                (ln (Py.max crp 0.1 + 1)) vasc_count) = None.
Proof.
  unfold calculate_smart_risk.
  destruct (crp_log_defined crp) as [-> _]. cbn [mbind option_bind].
  destruct (risk10 _); cbn [mbind option_bind]; split; congruence.
Qed.


Lemma pow2_le_exp_nat (n : nat) : 2 ^ n <= exp (INR n).
Proof.
  induction n as [| n IH].
  - simpl. rewrite exp_0. lra.
  - rewrite S_INR, exp_plus. simpl pow.
    pose proof (exp_ineq1 1). pose proof (exp_pos (INR n)).
    assert (0 < 2 ^ n) by (apply pow_lt; lra).
    nra.
Qed.

Lemma exp_1024_overflows : Py.float_max < exp 1024.
Proof.
  pose proof (pow2_le_exp_nat 1024) as P.
  rewrite INR_IZR_INZ in P. change (Z.of_nat 1024) with 1024%Z in P.
  apply Rlt_le_trans with (2 ^ 1024); [| exact P].
  unfold Py.float_max. rewrite pow_IZR.
  apply IZR_lt. vm_compute. reflexivity.
Qed.

(** X2: with the other inputs in their clinical ranges, an age of 16200 or
    more overflows [math.exp]: the function returns [None], not 99.0. *)
Theorem calculate_smart_risk_overflows_on_huge_age (age : R) (sex : string)
    (sbp total_chol hdl : R) (smoker diabetes : bool)
    (egfr crp vasc_count : R) :
  clinical_range 30 sbp total_chol hdl egfr crp vasc_count ->
  16200 <= age ->
  calculate_smart_risk age sex sbp total_chol hdl smoker diabetes egfr crp
    vasc_count = None.
Proof.
  intros Hr Ha. apply calculate_smart_risk_none_iff, risk10_none_iff.
  apply Rlt_le_trans with (exp 1024); [apply exp_1024_overflows |].
  apply exp_le.
  destruct (crp_log_defined crp) as [_ B].
  unfold clinical_range in Hr.
  assert (0 <= ln (Py.max crp 0.1 + 1)) by (apply B; lra).
  unfold lp.
  destruct (decide (sex = "Male")), smoker, diabetes; lra.
Qed.

Lemma calculate_smart_risk_overflows_on_huge_age_witness :
  calculate_smart_risk 20000 "Female" 140 5.0 1.0 false false 80 2.0 1 = None.
Proof.
  apply calculate_smart_risk_overflows_on_huge_age.
  - unfold clinical_range. lra.
  - lra.
Defined.

Lemma py_round_on_grid (x : R) :
  Py.round x 1 = IZR (Py.round_half_even (x * 10)) / 10.
Proof. unfold Py.round. rewrite pow_1. reflexivity. Qed.

(** X3: whatever the inputs, a returned risk is a whole number of tenths
    between 1.0 and 99.0. *)
Theorem calculate_smart_risk_on_tenths_grid (age : R) (sex : string)
    (sbp total_chol hdl : R) (smoker diabetes : bool)
    (egfr crp vasc_count : R) :
  calculate_smart_risk age sex sbp total_chol hdl smoker diabetes egfr crp
    vasc_count = None
  \/ exists k : Z,
       (10 <= k <= 990)%Z
       /\ calculate_smart_risk age sex sbp total_chol hdl smoker diabetes
            egfr crp vasc_count = Some (IZR k / 10).
Proof.
  unfold calculate_smart_risk.
  destruct (crp_log crp) as [cl |]; cbn [mbind option_bind]; [| left; reflexivity].
  destruct (risk10 _) as [r |]; cbn [mbind option_bind]; [| left; reflexivity].
  right. rewrite py_round_on_grid.
  set (k := Py.round_half_even (r * 100 * 10)).
  unfold Py.max, Py.min.
  destruct (Rlt_dec (IZR k / 10) 99.0) as [U | U].
  - destruct (Rlt_dec 1.0 (IZR k / 10)) as [L | L].
    + exists k. split; [| reflexivity].
      assert (IZR 10 < IZR k) by lra. assert (IZR k < IZR 990) by lra.
      split; apply Z.lt_le_incl, lt_IZR; assumption.
    + exists 10%Z. split; [lia |]. f_equal; lra.
  - destruct (Rlt_dec 1.0 99.0); [| lra].
    exists 990%Z. split; [lia |]. f_equal; lra.
Qed.

(** ** Baseline risk: CRP and sex *)

Lemma py_max_mono_l (a b c : R) : a <= b -> Py.max a c <= Py.max b c.
Proof.
  intros H. rewrite !py_max_Rmax. apply Rle_max_compat_r, H.
Qed.

(** X4: in the clinical ranges a higher CRP never lowers the result, the
    other inputs being the same. *)
Theorem calculate_smart_risk_monotone_in_crp (crp crp' : R) (age : R)
    (sex : string) (sbp total_chol hdl : R) (smoker diabetes : bool)
    (egfr vasc_count : R) :
  clinical_range age sbp total_chol hdl egfr crp vasc_count ->
  clinical_range age sbp total_chol hdl egfr crp' vasc_count ->
  crp <= crp' ->
  exists r r' : R,
    calculate_smart_risk age sex sbp total_chol hdl smoker diabetes egfr crp
      vasc_count = Some r
    /\ calculate_smart_risk age sex sbp total_chol hdl smoker diabetes egfr
         crp' vasc_count = Some r'
    /\ r <= r'.
Proof.
  intros R1 R2 H.
  rewrite (calculate_smart_risk_defined _ sex _ _ _ smoker diabetes _ _ _ R1).
  rewrite (calculate_smart_risk_defined _ sex _ _ _ smoker diabetes _ _ _ R2).
  do 2 eexists. split; [reflexivity |]. split; [reflexivity |].
  apply reported_risk_mono.
  assert (M : Py.max crp 0.1 <= Py.max crp' 0.1) by (apply py_max_mono_l, H).
  assert (P : 0.1 <= Py.max crp 0.1).
  { unfold Py.max. destruct (Rlt_dec crp 0.1); lra. }
  assert (L : ln (Py.max crp 0.1 + 1) <= ln (Py.max crp' 0.1 + 1)).
  { destruct M as [M | M]; [| rewrite M; lra].
    left. apply ln_increasing; lra. }
  unfold lp. lra.
Qed.

Lemma calculate_smart_risk_monotone_in_crp_witness :
  exists r r' : R,
    calculate_smart_risk 65 "Male" 140 5.0 1.0 false false 80 0.0 1 = Some r
    /\ calculate_smart_risk 65 "Male" 140 5.0 1.0 false false 80 12.5 1
       = Some r'
    /\ r <= r'.
Proof.
  apply (calculate_smart_risk_monotone_in_crp 0.0 12.5);
    unfold clinical_range; lra.
Defined.

(** X5: in the clinical ranges the sex "Male" never scores below any other
    sex string, the other inputs being the same. *)
Theorem calculate_smart_risk_male_not_lower (sex : string) (age : R)
    (sbp total_chol hdl : R) (smoker diabetes : bool)
    (egfr crp vasc_count : R) :
  clinical_range age sbp total_chol hdl egfr crp vasc_count ->
  exists r r' : R,
    calculate_smart_risk age sex sbp total_chol hdl smoker diabetes egfr crp
      vasc_count = Some r
    /\ calculate_smart_risk age "Male" sbp total_chol hdl smoker diabetes
         egfr crp vasc_count = Some r'
    /\ r <= r'.
Proof.
  intros Hr.
  rewrite (calculate_smart_risk_defined _ sex _ _ _ smoker diabetes _ _ _ Hr).
  rewrite (calculate_smart_risk_defined _ "Male" _ _ _ smoker diabetes _ _ _ Hr).
  do 2 eexists. split; [reflexivity |]. split; [reflexivity |].
  apply reported_risk_mono. unfold lp.
  rewrite (decide_True (P := "Male" = "Male")) by reflexivity.
  destruct (decide (sex = "Male")); lra.
Qed.

Lemma calculate_smart_risk_male_not_lower_witness :
  exists r r' : R,
    calculate_smart_risk 65 "Female" 140 5.0 1.0 false false 80 2.0 1 = Some r
    /\ calculate_smart_risk 65 "Male" 140 5.0 1.0 false false 80 2.0 1
       = Some r'
    /\ r <= r'.
Proof.
  apply (calculate_smart_risk_male_not_lower "Female").
  unfold clinical_range. lra.
Defined.

(** ** Risk adjustment: bounds, monotonicity, plateau *)

(** The local [rrr] of [calculate_ldl_effect] after its last cap. *)
Lemma calculate_ldl_effect_rrr (baseline_risk baseline_ldl final_ldl : R)
    (bp_controlled smoking_cessation lifestyle : bool) :
  calculate_ldl_effect baseline_risk baseline_ldl final_ldl bp_controlled
    smoking_cessation lifestyle
  = baseline_risk
    * (1 - Spec.rrr baseline_ldl final_ldl bp_controlled smoking_cessation
             lifestyle / 100).
Proof. apply calculate_ldl_effect_spec. Qed.

Lemma rrr_le_80 (bl fl : R) (b s l : bool) : Spec.rrr bl fl b s l <= 80.
Proof. unfold Spec.rrr. apply Rmin_r. Qed.



Lemma rrr_antitone_final_ldl (bl fl fl' : R) (b s l : bool) :
  fl <= fl' -> Spec.rrr bl fl' b s l <= Spec.rrr bl fl b s l.
Proof.
  intros H. unfold Spec.rrr.
  apply Rle_min_compat_r.
  repeat apply Rplus_le_compat_r.
  apply Rle_min_compat_r. lra.
Qed.

(** X7: for a non-negative baseline risk, a lower achieved LDL never gives
    a higher adjusted risk. *)
Theorem calculate_ldl_effect_monotone_in_final_ldl (baseline_risk
    baseline_ldl final_ldl final_ldl' : R)
    (bp_controlled smoking_cessation lifestyle : bool) :
  0 <= baseline_risk ->
  final_ldl <= final_ldl' ->
  calculate_ldl_effect baseline_risk baseline_ldl final_ldl bp_controlled
    smoking_cessation lifestyle
  <= calculate_ldl_effect baseline_risk baseline_ldl final_ldl' bp_controlled
       smoking_cessation lifestyle.
Proof.
  intros Hb H. rewrite !calculate_ldl_effect_rrr.
  pose proof (rrr_antitone_final_ldl baseline_ldl final_ldl final_ldl'
                bp_controlled smoking_cessation lifestyle H).
  nra.
Qed.

Lemma calculate_ldl_effect_monotone_in_final_ldl_witness :
  calculate_ldl_effect 30 4.0 1.4 false true true
  <= calculate_ldl_effect 30 4.0 2.6 false true true.
Proof. apply calculate_ldl_effect_monotone_in_final_ldl; lra. Defined.

(** The sum of the three flat bonuses. *)
Lemma rrr_unfold (bl fl : R) (b s l : bool) :
  Spec.rrr bl fl b s l
  = Rmin (Rmin (22 * (bl - fl)) 60
          + ((if b then 10 else 0) + (if s then 10 else 0)
             + (if l then 5 else 0))) 80.
Proof. unfold Spec.rrr. f_equal. lra. Qed.

Lemma bonus_range (b s l : bool) :
  0 <= (if b then 10 else 0) + (if s then 10 else 0) + (if l then 5 else 0)
    <= 25.
Proof. destruct b, s, l; lra. Qed.

(** X8: once the LDL drop reaches 60/22 mmol/L the LDL term is at its cap:
    the result no longer depends on the two LDL values. *)
Theorem calculate_ldl_effect_plateau (baseline_risk baseline_ldl final_ldl : R)
    (bp_controlled smoking_cessation lifestyle : bool) :
  60 <= 22 * (baseline_ldl - final_ldl) ->
  calculate_ldl_effect baseline_risk baseline_ldl final_ldl bp_controlled
    smoking_cessation lifestyle
  = baseline_risk
    * (1 - Rmin (60 + ((if bp_controlled then 10 else 0)
                       + (if smoking_cessation then 10 else 0)
                       + (if lifestyle then 5 else 0))) 80 / 100).
Proof.
  intros H. rewrite calculate_ldl_effect_rrr, rrr_unfold.
  rewrite (Rmin_right (22 * (baseline_ldl - final_ldl)) 60) by exact H.
  reflexivity.
Qed.

Lemma calculate_ldl_effect_plateau_witness :
  calculate_ldl_effect 30 6.0 0.5 false false true
  = 30 * (1 - Rmin (60 + (0 + 0 + 5)) 80 / 100).
Proof.
  apply (calculate_ldl_effect_plateau 30 6.0 0.5 false false true). lra.
Defined.

(** X9: for a non-negative baseline risk, turning on any of the three
    flags never raises the adjusted risk. *)
Theorem calculate_ldl_effect_flags_never_raise (baseline_risk baseline_ldl
    final_ldl : R) (b s l b' s' l' : bool) :
  0 <= baseline_risk ->
  Bool.le b b' -> Bool.le s s' -> Bool.le l l' ->
  calculate_ldl_effect baseline_risk baseline_ldl final_ldl b' s' l'
  <= calculate_ldl_effect baseline_risk baseline_ldl final_ldl b s l.
Proof.
  intros Hb Lb Ls Ll. rewrite !calculate_ldl_effect_rrr, !rrr_unfold.
  assert (M : Rmin (Rmin (22 * (baseline_ldl - final_ldl)) 60
                    + ((if b then 10 else 0) + (if s then 10 else 0)
                       + (if l then 5 else 0))) 80
              <= Rmin (Rmin (22 * (baseline_ldl - final_ldl)) 60
                       + ((if b' then 10 else 0) + (if s' then 10 else 0)
                          + (if l' then 5 else 0))) 80).
  { apply Rle_min_compat_r, Rplus_le_compat_l.
    destruct b, b', s, s', l, l'; cbn in Lb, Ls, Ll;
      first [discriminate | lra]. }
  nra.
Qed.

Lemma calculate_ldl_effect_flags_never_raise_witness :
  calculate_ldl_effect 30 4.0 3.0 true true true
  <= calculate_ldl_effect 30 4.0 3.0 false false true.
Proof.
  apply calculate_ldl_effect_flags_never_raise;
    first [lra | exact I | reflexivity].
Defined.



(** ** LDL projection: what the result depends on, and its bounds *)

(** X11: the add-on list is read through membership only: two lists with
    the same elements, in any order and with any repetitions, give the
    same pair. *)
Theorem calculate_ldl_reduction_add_ons_as_set (current_ldl : R)
    (pre_statin discharge_statin : string) (l1 l2 : list string) :
  (forall x : string, x ∈ l1 <-> x ∈ l2) ->
  calculate_ldl_reduction current_ldl pre_statin discharge_statin l1
  = calculate_ldl_reduction current_ldl pre_statin discharge_statin l2.
Proof.
  intros H. unfold calculate_ldl_reduction.
  pose proof (H "Ezetimibe"). pose proof (H "PCSK9 inhibitor").
  pose proof (H "Inclisiran").
  repeat case_decide; first [reflexivity | tauto].
Qed.

Lemma calculate_ldl_reduction_add_ons_as_set_witness :
  calculate_ldl_reduction 3.5 "None" "Atorvastatin 80 mg"
    ["Ezetimibe"; "Inclisiran"]
  = calculate_ldl_reduction 3.5 "None" "Atorvastatin 80 mg"
      ["Inclisiran"; "Ezetimibe"; "Inclisiran"].
Proof.
  apply calculate_ldl_reduction_add_ons_as_set.
  intros x. rewrite !elem_of_cons, !elem_of_nil. tauto.
Defined.

(** X12: the pre-existing statin matters only through being "None" or
    not: which statin it is, or whether it is in the table, changes
    nothing. *)
Theorem calculate_ldl_reduction_pre_statin_as_flag (current_ldl : R)
    (pre_statin pre_statin' discharge_statin : string)
    (discharge_add_ons : list string) :
  pre_statin <> "None" -> pre_statin' <> "None" ->
  calculate_ldl_reduction current_ldl pre_statin discharge_statin
    discharge_add_ons
  = calculate_ldl_reduction current_ldl pre_statin' discharge_statin
      discharge_add_ons.
Proof.
  intros H H'. unfold calculate_ldl_reduction.
  rewrite (decide_True (P := pre_statin ≠ "None")) by exact H.
  rewrite (decide_True (P := pre_statin' ≠ "None")) by exact H'.
  reflexivity.
Qed.

Lemma calculate_ldl_reduction_pre_statin_as_flag_witness :
  calculate_ldl_reduction 3.5 "Rosuvastatin 20 mg" "Atorvastatin 20 mg" []
  = calculate_ldl_reduction 3.5 "none" "Atorvastatin 20 mg" [].
Proof.
  apply calculate_ldl_reduction_pre_statin_as_flag; discriminate.
Defined.

(** X13: without the PCSK9 inhibitor and Inclisiran the total reduction is
    at most 75, so a non-negative LDL keeps at least a quarter of its
    value and is never projected below zero. *)
Theorem calculate_ldl_reduction_without_injectables (current_ldl : R)
    (pre_statin discharge_statin : string) (discharge_add_ons : list string) :
  "PCSK9 inhibitor" ∉ discharge_add_ons ->
  "Inclisiran" ∉ discharge_add_ons ->
  (calculate_ldl_reduction current_ldl pre_statin discharge_statin
     discharge_add_ons).2 <= 75
  /\ (0 <= current_ldl ->
      0.25 * current_ldl
      <= (calculate_ldl_reduction current_ldl pre_statin discharge_statin
            discharge_add_ons).1).
Proof.
  intros Hp Hi. rewrite calculate_ldl_reduction_spec.
  unfold Spec.projectLdl. cbn [fst snd].
  assert (T : Spec.totalReduction pre_statin discharge_statin
                discharge_add_ons <= 75).
  { unfold Spec.totalReduction, Spec.addOnReduction, Spec.addOn.
    pose proof (catalogReduction_range discharge_statin).
    repeat case_decide; try contradiction; lra. }
  split; [exact T |]. intros Hc. nra.
Qed.

Lemma calculate_ldl_reduction_without_injectables_witness :
  (calculate_ldl_reduction 3.5 "None" "Rosuvastatin 20 mg" ["Ezetimibe"]).2
  <= 75
  /\ 0.25 * 3.5
     <= (calculate_ldl_reduction 3.5 "None" "Rosuvastatin 20 mg"
           ["Ezetimibe"]).1.
Proof.
  destruct (calculate_ldl_reduction_without_injectables 3.5 "None"
              "Rosuvastatin 20 mg" ["Ezetimibe"]) as [T P].
  - rewrite list_elem_of_singleton. discriminate.
  - rewrite list_elem_of_singleton. discriminate.
  - split; [exact T | apply P; lra].
Defined.



Lemma catalogReduction_of_key (name : string) (d : gmap string Z) :
  LDL_THERAPIES !! name = Some d -> 40 <= Spec.catalogReduction name.
Proof.
  intros L. apply LDL_THERAPIES_keys in L.
  unfold Spec.catalogReduction.
  destruct L as [-> | [-> | [-> | ->]]]; decide_literals; lra.
Qed.

(** X15: a statin of the table at full effect (no pre-existing statin)
    together with the PCSK9 inhibitor alone already reaches a total of
    100: a non-negative LDL is projected to zero or below. *)
Theorem calculate_ldl_reduction_statin_plus_pcsk9 (current_ldl : R)
    (discharge_statin : string) (d : gmap string Z)
    (discharge_add_ons : list string) :
  LDL_THERAPIES !! discharge_statin = Some d ->
  "PCSK9 inhibitor" ∈ discharge_add_ons ->
  0 <= current_ldl ->
  100 <= (calculate_ldl_reduction current_ldl "None" discharge_statin
            discharge_add_ons).2
  /\ (calculate_ldl_reduction current_ldl "None" discharge_statin
        discharge_add_ons).1 <= 0.
Proof.
  intros L Hp Hc. rewrite calculate_ldl_reduction_spec.
  unfold Spec.projectLdl. cbn [fst snd].
  assert (T : 100 <= Spec.totalReduction "None" discharge_statin
                       discharge_add_ons).
  { unfold Spec.totalReduction, Spec.addOnReduction, Spec.addOn.
    pose proof (catalogReduction_of_key _ _ L).
    rewrite (decide_True (P := "None" = "None")) by reflexivity.
    repeat case_decide; try contradiction; lra. }
  split; [exact T | nra].
Qed.

Lemma calculate_ldl_reduction_statin_plus_pcsk9_witness :
  100 <= (calculate_ldl_reduction 3.5 "None" "Atorvastatin 80 mg"
            ["PCSK9 inhibitor"]).2
  /\ (calculate_ldl_reduction 3.5 "None" "Atorvastatin 80 mg"
        ["PCSK9 inhibitor"]).1 <= 0.
Proof.
  apply (calculate_ldl_reduction_statin_plus_pcsk9 3.5 "Atorvastatin 80 mg"
           {[ "reduction" := 50%Z ]} ["PCSK9 inhibitor"]).
  - reflexivity.
  - apply list_elem_of_here.
  - lra.
Defined.

(** X16: a pre-existing statin never improves the projection: the total is
    at most the one with "None", and for a non-negative LDL the projected
    value is at least the one with "None". *)
Theorem calculate_ldl_reduction_pre_statin_never_helps (current_ldl : R)
    (pre_statin discharge_statin : string) (discharge_add_ons : list string) :
  (calculate_ldl_reduction current_ldl pre_statin discharge_statin
     discharge_add_ons).2
  <= (calculate_ldl_reduction current_ldl "None" discharge_statin
        discharge_add_ons).2
  /\ (0 <= current_ldl ->
      (calculate_ldl_reduction current_ldl "None" discharge_statin
         discharge_add_ons).1
      <= (calculate_ldl_reduction current_ldl pre_statin discharge_statin
            discharge_add_ons).1).
Proof.
  rewrite !calculate_ldl_reduction_spec.
  unfold Spec.projectLdl. cbn [fst snd].
  assert (T : Spec.totalReduction pre_statin discharge_statin
                discharge_add_ons
              <= Spec.totalReduction "None" discharge_statin
                   discharge_add_ons).
  { unfold Spec.totalReduction.
    pose proof (catalogReduction_range discharge_statin).
    rewrite (decide_True (P := "None" = "None")) by reflexivity.
    case_decide; lra. }
  split; [exact T |]. intros Hc. nra.
Qed.

Lemma calculate_ldl_reduction_pre_statin_never_helps_witness :
  (calculate_ldl_reduction 3.5 "None" "Rosuvastatin 20 mg" []).1
  <= (calculate_ldl_reduction 3.5 "Atorvastatin 20 mg" "Rosuvastatin 20 mg"
        []).1.
Proof.
  apply (calculate_ldl_reduction_pre_statin_never_helps 3.5
           "Atorvastatin 20 mg" "Rosuvastatin 20 mg" []).
  lra.
Defined.

(** ** The gauge *)

Lemma radians_mono (a b : R) : a <= b -> Py.radians a <= Py.radians b.
Proof.
  intros H. unfold Py.radians. pose proof PI_RGT_0. nra.
Qed.

Lemma radians_plus (a b : R) :
  Py.radians a + Py.radians (b - a) = Py.radians b.
Proof. unfold Py.radians. lra. Qed.

(** The needle, in degrees, within the bounds of the band of the tier. *)
Lemma needle_degrees_in_band (risk_value : R) :
  match risk_tier risk_value with
  | Moderate => 0 <= Py.min (Py.max risk_value 0) 99 <= 20
  | High => 20 <= Py.min (Py.max risk_value 0) 99 <= 30
  | VeryHigh => 30 <= Py.min (Py.max risk_value 0) 99 <= 100
  end.
Proof.
  unfold Py.min, Py.max.
  destruct (risk_tier_cases risk_value) as [[H ->] | [[H ->] | [H ->]]];
    destruct (Rlt_dec risk_value 0); destruct (Rlt_dec 99 _); lra.
Qed.

(** X17: for every risk value the needle of the gauge points into the bar
    of the tier that [generate_recommendations] gives it: green for
    Moderate, orange for High, red for Very High; a value outside 0..99 is
    drawn at the nearer end. *)
Theorem gauge_needle_points_into_tier_band (risk_value : R) :
  exists left width : R,
    bars (plot_risk_gauge risk_value) !! tier_rank (risk_tier risk_value)
    = Some (left, width,
            match risk_tier risk_value with
            | Moderate => "green" | High => "orange" | VeryHigh => "red"
            end)
    /\ left <= needle_angle (plot_risk_gauge risk_value) <= left + width.
Proof.
  pose proof (needle_degrees_in_band risk_value) as N.
  unfold plot_risk_gauge, bands. cbn [bars needle_angle map].
  destruct (risk_tier risk_value); cbn [tier_rank]; do 2 eexists;
    (split; [reflexivity |]); rewrite radians_plus;
    split; apply radians_mono; lra.
Qed.

(** ** The main script *)

Lemma vasc_count_range (cad stroke pad : bool) :
  0 <= IZR (Py.sum [cad; stroke; pad]) <= 3.
Proof.
  destruct cad, stroke, pad;
    match goal with |- context [Py.sum ?l] =>
      let v := eval vm_compute in (Py.sum l) in change (Py.sum l) with v
    end; lra.
Qed.

Lemma crp_used_range (crp : R) (include_crp : bool) :
  0.1 <= crp <= 20.0 -> 0.0 <= crp_used crp include_crp <= 20.0.
Proof. unfold crp_used. destruct include_crp; lra. Qed.

(** The body of the page for widget values within their bounds. *)
Lemma main_body_in_range (w : widgets) :
  widget_range w ->
  exists b : R,
    1 <= b <= 99
    /\ (main w).2
       = if w_submitted w then
           let pt := calculate_ldl_reduction (w_ldl w) (w_pre_statin w)
                       (w_discharge_statin w) (w_discharge_add_ons w) in
           let f := calculate_ldl_effect b (w_ldl w) pt.1 (w_bp_controlled w)
                      (negb (w_smoker w)) (w_lifestyle w) in
           TreatmentImpact b pt.1 pt.2 f (generate_recommendations f)
             (plot_risk_gauge f)
         else FormOnly b.
Proof.
  intros Hw. unfold widget_range in Hw.
  assert (Hr : clinical_range (w_age w) (w_sbp w) (w_total_chol w) (w_hdl w)
                 (w_egfr w) (crp_used (w_crp w) (w_include_crp w))
                 (IZR (Py.sum [w_cad w; w_stroke w; w_pad w]))).
  { pose proof (vasc_count_range (w_cad w) (w_stroke w) (w_pad w)).
    pose proof (crp_used_range (w_crp w) (w_include_crp w)).
    unfold clinical_range. lra. }
  unfold main. cbn [snd].
  rewrite (calculate_smart_risk_defined _ (w_sex w) _ _ _ (w_smoker w)
             (w_diabetes w) _ _ _ Hr).
  match goal with |- context [Py.max 1.0 (Py.min 99.0 ?x)] =>
    pose proof (clamp_range x) as B;
    set (b := Py.max 1.0 (Py.min 99.0 x)) in *
  end.
  exists b. split; [exact B |].
  unfold Py.truthy. destruct (Req_dec_T b 0) as [E | _]; [lra |].
  destruct (w_submitted w); [| reflexivity].
  destruct (calculate_ldl_reduction _ _ _ _) as [p t]. reflexivity.
Qed.

Lemma default_widgets_in_range (submitted : bool) :
  widget_range (default_widgets submitted).
Proof. unfold widget_range, default_widgets. cbn. lra. Qed.

(** X18: with every widget within its bounds the page never shows the
    "Please complete all patient data" warning: the baseline risk is a
    number between 1 and 99, shown alone before the form is submitted and
    with the treatment impact after, whether or not HDL is below total
    cholesterol and whether or not CRP is included. *)
Theorem main_never_asks_to_complete (w : widgets) :
  widget_range w ->
  exists b : R,
    1 <= b <= 99
    /\ ((w_submitted w = false /\ (main w).2 = FormOnly b)
        \/ (w_submitted w = true
            /\ exists (p t f : R) (rec : string) (fig : figure),
                 (main w).2 = TreatmentImpact b p t f rec fig)).
Proof.
  intros Hw. destruct (main_body_in_range w Hw) as (b & B & E).
  exists b. split; [exact B |].
  rewrite E. destruct (w_submitted w).
  - right. split; [reflexivity |]. cbv zeta. do 5 eexists. reflexivity.
  - left. split; reflexivity.
Qed.

Lemma main_never_asks_to_complete_witness :
  exists b : R,
    1 <= b <= 99
    /\ ((false = false /\ (main (default_widgets false)).2 = FormOnly b)
        \/ (false = true
            /\ exists (p t f : R) (rec : string) (fig : figure),
                 (main (default_widgets false)).2
                 = TreatmentImpact b p t f rec fig)).
Proof.
  apply (main_never_asks_to_complete (default_widgets false)).
  apply default_widgets_in_range.
Defined.

Lemma projected_le_current (current_ldl : R) (pre_statin discharge_statin : string)
    (discharge_add_ons : list string) :
  0 <= current_ldl ->
  (calculate_ldl_reduction current_ldl pre_statin discharge_statin
     discharge_add_ons).1 <= current_ldl.
Proof.
  intros Hc. rewrite calculate_ldl_reduction_spec.
  unfold Spec.projectLdl. cbn [fst].
  pose proof (totalReduction_nonneg pre_statin discharge_statin
                discharge_add_ons).
  nra.
Qed.

(** When LDL does not rise, [rrr] is at least the bonuses (capped). *)
Lemma rrr_lower_bound (bl fl : R) (b s l : bool) :
  fl <= bl ->
  Rmin ((if b then 10 else 0) + (if s then 10 else 0)
        + (if l then 5 else 0)) 80
  <= Spec.rrr bl fl b s l.
Proof.
  intros H. rewrite rrr_unfold.
  apply Rle_min_compat_r.
  assert (0 <= Rmin (22 * (bl - fl)) 60).
  { apply Rmin_glb; lra. }
  lra.
Qed.

(** The adjusted risk after a submitted form, for widgets in range. *)
Lemma main_impact_in_range (w : widgets) :
  widget_range w -> w_submitted w = true ->
  exists (b p t f : R) (rec : string) (fig : figure),
    (main w).2 = TreatmentImpact b p t f rec fig
    /\ 1 <= b <= 99 /\ p <= w_ldl w
    /\ f = calculate_ldl_effect b (w_ldl w) p (w_bp_controlled w)
             (negb (w_smoker w)) (w_lifestyle w)
    /\ rec = generate_recommendations f
    /\ fig = plot_risk_gauge f.
Proof.
  intros Hw Hs. destruct (main_body_in_range w Hw) as (b & B & E).
  rewrite Hs in E. cbv zeta in E.
  do 6 eexists. split; [exact E |].
  split; [exact B |].
  split; [| repeat split; reflexivity].
  apply projected_le_current. unfold widget_range in Hw. lra.
Qed.

(** The post-treatment risk of a submitted form lies between 0.2 and 99,
    and the figure is its gauge. *)
Lemma main_final_risk_range (w : widgets) :
  widget_range w -> w_submitted w = true ->
  exists (b p t f : R) (rec : string) (fig : figure),
    (main w).2 = TreatmentImpact b p t f rec fig
    /\ fig = plot_risk_gauge f /\ 0.2 <= f <= 99.
Proof.
  intros Hw Hs.
  destruct (main_impact_in_range w Hw Hs)
    as (b & p & t & f & rec & fig & E & B & P & F & _ & Fg).
  exists b, p, t, f, rec, fig. split; [exact E |]. split; [exact Fg |].
  rewrite F, calculate_ldl_effect_rrr.
  pose proof (rrr_le_80 (w_ldl w) p (w_bp_controlled w) (negb (w_smoker w))
                (w_lifestyle w)).
  pose proof (rrr_lower_bound (w_ldl w) p (w_bp_controlled w)
                (negb (w_smoker w)) (w_lifestyle w) P) as G.
  pose proof (bonus_range (w_bp_controlled w) (negb (w_smoker w))
                (w_lifestyle w)) as Bo.
  assert (0 <= Spec.rrr (w_ldl w) p (w_bp_controlled w) (negb (w_smoker w))
                 (w_lifestyle w)).
  { eapply Rle_trans; [| exact G]. apply Rmin_glb; lra. }
  split; nra.
Qed.



(** X20: the script passes [not smoker] as [smoking_cessation], so for a
    non-smoker the post-treatment risk is at most 90 percent of the
    baseline whatever the regimen, an empty one included. *)
Theorem main_non_smoker_gets_cessation_bonus (w : widgets) :
  widget_range w -> w_submitted w = true -> w_smoker w = false ->
  exists (b p t f : R) (rec : string) (fig : figure),
    (main w).2 = TreatmentImpact b p t f rec fig /\ f <= 0.9 * b.
Proof.
  intros Hw Hs Hn.
  destruct (main_impact_in_range w Hw Hs)
    as (b & p & t & f & rec & fig & E & B & P & F & _).
  exists b, p, t, f, rec, fig. split; [exact E |].
  rewrite F, Hn, calculate_ldl_effect_rrr. cbn [negb].
  pose proof (rrr_lower_bound (w_ldl w) p (w_bp_controlled w) true
                (w_lifestyle w) P) as G.
  assert (10 <= Spec.rrr (w_ldl w) p (w_bp_controlled w) true (w_lifestyle w)).
  { eapply Rle_trans; [| exact G].
    apply Rmin_glb; [| lra].
    destruct (w_bp_controlled w), (w_lifestyle w); lra. }
  nra.
Qed.

Lemma main_non_smoker_gets_cessation_bonus_witness :
  exists (b p t f : R) (rec : string) (fig : figure),
    (main (default_widgets true)).2 = TreatmentImpact b p t f rec fig
    /\ f <= 0.9 * b.
Proof.
  apply (main_non_smoker_gets_cessation_bonus (default_widgets true)).
  - apply default_widgets_in_range.
  - reflexivity.
  - reflexivity.
Defined.

Lemma risk_tier_mono (r1 r2 : R) :
  r1 <= r2 -> (tier_rank (risk_tier r1) <= tier_rank (risk_tier r2))%nat.
Proof.
  intros H.
  destruct (risk_tier_cases r1) as [[H1 ->] | [[H1 ->] | [H1 ->]]];
    destruct (risk_tier_cases r2) as [[H2 ->] | [[H2 ->] | [H2 ->]]];
    cbn [tier_rank]; first [lia | exfalso; lra].
Qed.

(** X21: after the form is submitted, with the widgets within their
    bounds, the recommendation shown is the text of the tier of the
    post-treatment risk, and that tier is never more severe than the tier
    the baseline risk would get. *)
Theorem main_recommended_tier_not_above_baseline (w : widgets) :
  widget_range w -> w_submitted w = true ->
  exists (b p t f : R) (rec : string) (fig : figure),
    (main w).2 = TreatmentImpact b p t f rec fig
    /\ rec = tier_text (risk_tier f)
    /\ (tier_rank (risk_tier f) <= tier_rank (risk_tier b))%nat.
Proof.
  intros Hw Hs.
  destruct (main_impact_in_range w Hw Hs)
    as (b & p & t & f & rec & fig & E & B & P & F & Rc & _).
  exists b, p, t, f, rec, fig. split; [exact E |].
  split; [exact Rc |].
  apply risk_tier_mono.
  rewrite F, calculate_ldl_effect_rrr.
  pose proof (rrr_lower_bound (w_ldl w) p (w_bp_controlled w)
                (negb (w_smoker w)) (w_lifestyle w) P) as G.
  pose proof (bonus_range (w_bp_controlled w) (negb (w_smoker w))
                (w_lifestyle w)) as Bo.
  assert (0 <= Spec.rrr (w_ldl w) p (w_bp_controlled w) (negb (w_smoker w))
                 (w_lifestyle w)).
  { eapply Rle_trans; [| exact G]. apply Rmin_glb; lra. }
  nra.
Qed.

Lemma main_recommended_tier_not_above_baseline_witness :
  exists (b p t f : R) (rec : string) (fig : figure),
    (main (default_widgets true)).2 = TreatmentImpact b p t f rec fig
    /\ rec = tier_text (risk_tier f)
    /\ (tier_rank (risk_tier f) <= tier_rank (risk_tier b))%nat.
Proof.
  apply (main_recommended_tier_not_above_baseline (default_widgets true)).
  - apply default_widgets_in_range.
  - reflexivity.
Defined.

(** The clamp of the needle leaves a value between 0 and 99 as it is. *)
Lemma needle_clamp_id (risk_value : R) :
  0 <= risk_value <= 99 -> Py.min (Py.max risk_value 0) 99 = risk_value.
Proof.
  intros H. unfold Py.min, Py.max.
  destruct (Rlt_dec risk_value 0); destruct (Rlt_dec 99 _); lra.
Qed.

(** X22: after the form is submitted, with the widgets within their
    bounds, the gauge shows the post-treatment risk itself: the clamp of
    the needle to 0..99 never moves it. *)
Theorem main_gauge_needle_is_final_risk (w : widgets) :
  widget_range w -> w_submitted w = true ->
  exists (b p t f : R) (rec : string) (fig : figure),
    (main w).2 = TreatmentImpact b p t f rec fig
    /\ needle_angle fig = Py.radians f.
Proof.
  intros Hw Hs.
  destruct (main_final_risk_range w Hw Hs)
    as (b & p & t & f & rec & fig & E & Fg & L).
  exists b, p, t, f, rec, fig. split; [exact E |].
  rewrite Fg. unfold plot_risk_gauge. cbn [needle_angle].
  rewrite needle_clamp_id by lra. reflexivity.
Qed.

Lemma main_gauge_needle_is_final_risk_witness :
  exists (b p t f : R) (rec : string) (fig : figure),
    (main (default_widgets true)).2 = TreatmentImpact b p t f rec fig
    /\ needle_angle fig = Py.radians f.
Proof.
  apply (main_gauge_needle_is_final_risk (default_widgets true)).
  - apply default_widgets_in_range.
  - reflexivity.
Defined.
